(** * Pre-delinquency risk prototype: scoring, risk levels, recommendations

    A shallow embedding of [app_prototype.py]: the scorer [mock_predict],
    the lookup [get_recommendation] and the 'Impact' column of the
    [factors_df] table, followed by the properties of the written
    specification that concern them.

    Numbers.  The sliders for day and transaction counts deliver Python
    [int]s, modelled by [Z].  The two percentage sliders, the weights, the
    jitter and the score are Python [float]s; they are modelled by the exact
    rationals [Q], a decimal literal standing for the rational it spells.
    Rounding of binary64 arithmetic is not part of this model; equalities
    between scores are therefore stated with [==] ([Qeq]).  The module
    [Binary64] repeats the scorer on the machine's binary64 numbers, so
    that the concrete scenarios can also be evaluated bit for bit. *)

From Stdlib Require Import ZArith QArith Lqa PrimFloat.
From stdpp Require Import base strings list gmap.

Set Warnings "-inexact-float".

Local Open Scope Q_scope.

(** ** Python operators on numbers *)

Module Py.

(** [int * float] converts the integer operand first. *)
Definition of_int (n : Z) : Q := inject_Z n.

(** [x >= y] and [x > y] on floats. *)
Definition ge (x y : Q) : bool := Qle_bool y x.
Definition gt (x y : Q) : bool := negb (Qle_bool x y).

(** The builtin [min(a, b)]: it keeps its first argument unless the
    second one is strictly smaller. *)
Definition min (a b : Q) : Q := if gt a b then b else a.

End Py.

(** ** The input record

    [features] is the dictionary built from the seven sliders; it always
    carries exactly these seven keys, so it is a record here.  Field names
    are the dictionary keys. *)

Record Features : Type := mkFeatures {
  salary_delay_days : Z;
  savings_drop_pct : Q;
  utility_payment_delay_days : Z;
  discretionary_spend_drop_pct : Q;
  atm_withdrawal_increase : Z;
  upi_lending_txn_count : Z;
  failed_autodebit_count : Z
}.

(** ** [mock_predict] *)

(** The first assignment to [risk_score]: the weighted sum, before the
    jitter is added and before the clamp. *)
Definition raw_risk_score (features : Features) : Q :=
  Py.of_int (salary_delay_days features) * 0.03 +
  savings_drop_pct features * 0.4 +
  Py.of_int (utility_payment_delay_days features) * 0.02 +
  discretionary_spend_drop_pct features * 0.2 +
  Py.of_int (atm_withdrawal_increase features) * 0.02 +
  Py.of_int (upi_lending_txn_count features) * 0.05 +
  Py.of_int (failed_autodebit_count features) * 0.08.

(** The threshold cascade that names the level of a score. *)
Definition risk_level_of (risk_score : Q) : string :=
  if Py.ge risk_score 0.75 then "Critical"
  else if Py.ge risk_score 0.5 then "High"
  else if Py.ge risk_score 0.25 then "Medium"
  else "Low".

(** [mock_predict features]; [jitter] is the value that the call
    [random.uniform(-0.05, 0.05)] returns, the only use the function makes
    of the random source. *)
Definition mock_predict (features : Features) (jitter : Q) : Q * string :=
  let risk_score := raw_risk_score features in
  let risk_score := Py.min 1.0 (risk_score + jitter) in
  let risk_level := risk_level_of risk_score in
  (risk_score, risk_level).

(** ** [get_recommendation] *)

Definition recs : gmap string string :=
  <["Critical" := "Immediate intervention - Offer payment holiday or loan restructuring"]>
  (<["High" := "Priority contact - Propose debt consolidation plan"]>
  (<["Medium" := "Schedule check-in call - Offer financial counseling"]>
  (<["Low" := "Continue standard monitoring"]> ∅))).

(** [recs.get(risk_level, 'Monitor regularly')] *)
Definition get_recommendation (risk_level : string) : string :=
  default "Monitor regularly" (recs !! risk_level).

(** ** The 'Impact' column of [factors_df] *)

Definition factors_df_Impact
    (salary_delay : Z) (savings_drop : Q) (utility_delay : Z)
    (spending_drop : Q) (atm_increase upi_lending failed_debits : Z)
    : list string :=
  [ if (salary_delay >? 15)%Z then "High"
    else if (salary_delay >? 7)%Z then "Medium" else "Low";
    if Py.gt savings_drop 0.5 then "High"
    else if Py.gt savings_drop 0.2 then "Medium" else "Low";
    if (utility_delay >? 15)%Z then "High"
    else if (utility_delay >? 7)%Z then "Medium" else "Low";
    if Py.gt spending_drop 0.5 then "High"
    else if Py.gt spending_drop 0.2 then "Medium" else "Low";
    if (atm_increase >? 10)%Z then "High"
    else if (atm_increase >? 5)%Z then "Medium" else "Low";
    if (upi_lending >? 5)%Z then "High"
    else if (upi_lending >? 2)%Z then "Medium" else "Low";
    if (failed_debits >? 2)%Z then "High"
    else if (failed_debits >? 0)%Z then "Medium" else "Low" ].

(** The column for the record that the same sliders put into [features]. *)
Definition Impact (features : Features) : list string :=
  factors_df_Impact
    (salary_delay_days features) (savings_drop_pct features)
    (utility_payment_delay_days features) (discretionary_spend_drop_pct features)
    (atm_withdrawal_increase features) (upi_lending_txn_count features)
    (failed_autodebit_count features).

(** ** The scorer on binary64 numbers

    The same function on IEEE 754 binary64, the numbers Python computes
    with: literals are rounded to the nearest double and every operation
    rounds.  [of_int] is exact for integers of magnitude below 2^53, far
    beyond what the sliders deliver. *)

Module Binary64.

Local Open Scope float_scope.

Fixpoint of_pos (p : positive) : float :=
  match p with
  | xH => 1
  | xO q => 2 * of_pos q
  | xI q => 2 * of_pos q + 1
  end.

Definition of_int (n : Z) : float :=
  match n with
  | Z0 => 0
  | Zpos p => of_pos p
  | Zneg p => - of_pos p
  end.

(** [min(a, b)]: the second argument only when it compares strictly
    smaller. *)
Definition min (a b : float) : float := if b <? a then b else a.

Record Features : Type := mkFeatures {
  salary_delay_days : Z;
  savings_drop_pct : float;
  utility_payment_delay_days : Z;
  discretionary_spend_drop_pct : float;
  atm_withdrawal_increase : Z;
  upi_lending_txn_count : Z;
  failed_autodebit_count : Z
}.

Definition raw_risk_score (features : Features) : float :=
  of_int (salary_delay_days features) * 0.03 +
  savings_drop_pct features * 0.4 +
  of_int (utility_payment_delay_days features) * 0.02 +
  discretionary_spend_drop_pct features * 0.2 +
  of_int (atm_withdrawal_increase features) * 0.02 +
  of_int (upi_lending_txn_count features) * 0.05 +
  of_int (failed_autodebit_count features) * 0.08.

Definition mock_predict (features : Features) (jitter : float) : float * string :=
  let risk_score := raw_risk_score features in
  let risk_score := min 1.0 (risk_score + jitter) in
  let risk_level :=
    if 0.75 <=? risk_score then "Critical"
    else if 0.5 <=? risk_score then "High"
    else if 0.25 <=? risk_score then "Medium"
    else "Low" in
  (risk_score, risk_level).

End Binary64.

(** ** Vocabulary of the specification *)

(** The domains of the seven fields (the bounds of the seven sliders). *)
Definition in_domain (features : Features) : bool :=
  (0 <=? salary_delay_days features)%Z && (salary_delay_days features <=? 30)%Z &&
  Qle_bool 0.0 (savings_drop_pct features) && Qle_bool (savings_drop_pct features) 1.0 &&
  (0 <=? utility_payment_delay_days features)%Z &&
  (utility_payment_delay_days features <=? 30)%Z &&
  Qle_bool 0.0 (discretionary_spend_drop_pct features) &&
  Qle_bool (discretionary_spend_drop_pct features) 1.0 &&
  (0 <=? atm_withdrawal_increase features)%Z && (atm_withdrawal_increase features <=? 20)%Z &&
  (0 <=? upi_lending_txn_count features)%Z && (upi_lending_txn_count features <=? 10)%Z &&
  (0 <=? failed_autodebit_count features)%Z && (failed_autodebit_count features <=? 5)%Z.

(** The range of [random.uniform(-0.05, 0.05)]. *)
Definition jitter_in_range (jitter : Q) : bool :=
  Qle_bool (-0.05) jitter && Qle_bool jitter 0.05.

(** The weight table of the specification, one row per indicator: the
    indicator's value paired with its weight. *)
Definition weight_table (features : Features) : list (Q * Q) :=
  [ (Py.of_int (salary_delay_days features), 0.03);
    (savings_drop_pct features, 0.40);
    (Py.of_int (utility_payment_delay_days features), 0.02);
    (discretionary_spend_drop_pct features, 0.20);
    (Py.of_int (atm_withdrawal_increase features), 0.02);
    (Py.of_int (upi_lending_txn_count features), 0.05);
    (Py.of_int (failed_autodebit_count features), 0.08) ].

(** Σ (indicator_value × weight) over a table. *)
Fixpoint weighted_sum (table : list (Q * Q)) : Q :=
  match table with
  | [] => 0
  | (value, weight) :: rest => value * weight + weighted_sum rest
  end.

(** The rows of the breakdown table, in the order of its 'Factor' column. *)
Inductive Indicator : Type :=
  | SalaryDelay | SavingsDrop | UtilityDelay | SpendingDrop
  | AtmIncrease | LendingApps | FailedDebits.

Definition row (i : Indicator) : nat :=
  match i with
  | SalaryDelay => 0 | SavingsDrop => 1 | UtilityDelay => 2 | SpendingDrop => 3
  | AtmIncrease => 4 | LendingApps => 5 | FailedDebits => 6
  end%nat.

(** The impact label shown in row [i]. *)
Definition impact_of (i : Indicator) (features : Features) : option string :=
  Impact features !! row i.

(** Two records carry the same value for indicator [i]. *)
Definition agree_on (i : Indicator) (f1 f2 : Features) : Prop :=
  match i with
  | SalaryDelay => salary_delay_days f1 = salary_delay_days f2
  | SavingsDrop => savings_drop_pct f1 == savings_drop_pct f2
  | UtilityDelay => utility_payment_delay_days f1 = utility_payment_delay_days f2
  | SpendingDrop => discretionary_spend_drop_pct f1 == discretionary_spend_drop_pct f2
  | AtmIncrease => atm_withdrawal_increase f1 = atm_withdrawal_increase f2
  | LendingApps => upi_lending_txn_count f1 = upi_lending_txn_count f2
  | FailedDebits => failed_autodebit_count f1 = failed_autodebit_count f2
  end.

(** A label follows the three-tier rule with thresholds [hi] and [mid] for
    the value [v]: High when [v > hi], else Medium when [v > mid], else Low. *)
Definition three_tier {A : Type} (lt : A -> A -> Prop) (hi mid v : A)
    (label : option string) : Prop :=
  (lt hi v -> label = Some "High") /\
  (~ lt hi v -> lt mid v -> label = Some "Medium") /\
  (~ lt hi v -> ~ lt mid v -> label = Some "Low").

(** A level follows the four bands of the specification for the score [s]. *)
Definition in_band (s : Q) (level : string) : Prop :=
  (0.75 <= s -> level = "Critical") /\
  (~ 0.75 <= s -> 0.50 <= s -> level = "High") /\
  (~ 0.75 <= s -> ~ 0.50 <= s -> 0.25 <= s -> level = "Medium") /\
  (~ 0.75 <= s -> ~ 0.50 <= s -> ~ 0.25 <= s -> level = "Low").

(** Two records of the scenarios: every slider at its minimum, every slider
    at its maximum. *)
Definition all_zero : Features := mkFeatures 0 0.0 0 0.0 0 0 0.
Definition all_max : Features := mkFeatures 30 1.0 30 1.0 20 10 5.

(** Field-wise order on records. *)
Definition fieldwise_le (f1 f2 : Features) : Prop :=
  (salary_delay_days f1 <= salary_delay_days f2)%Z /\
  savings_drop_pct f1 <= savings_drop_pct f2 /\
  (utility_payment_delay_days f1 <= utility_payment_delay_days f2)%Z /\
  discretionary_spend_drop_pct f1 <= discretionary_spend_drop_pct f2 /\
  (atm_withdrawal_increase f1 <= atm_withdrawal_increase f2)%Z /\
  (upi_lending_txn_count f1 <= upi_lending_txn_count f2)%Z /\
  (failed_autodebit_count f1 <= failed_autodebit_count f2)%Z.

(** ** The rest of the analysis: dictionary, random source, rendering *)

(** [COLORS], the colour of the gauge bar for each level. *)
Definition COLORS : gmap string string :=
  <["Critical" := "#FF4B4B"]>
  (<["High" := "#FFA500"]>
  (<["Medium" := "#FFD700"]>
  (<["Low" := "#4CAF50"]> ∅))).

(** The exception a dictionary subscript raises for a key it does not hold. *)
Inductive Raised : Type :=
  | KeyError (key : string).

#[global] Instance raised_ret : MRet (sum Raised) := fun A x => inr x.

#[global] Instance raised_bind : MBind (sum Raised) :=
  fun A B f m => match m with inl e => inl e | inr x => f x end.

(** [d[key]] *)
Definition subscript {V : Type} (d : gmap string V) (key : string) : Raised + V :=
  match d !! key with
  | Some v => inr v
  | None => inl (KeyError key)
  end.

(** The numbers a slider delivers: an [int] or a [float]. *)
Inductive PyNum : Type :=
  | PyInt (n : Z)
  | PyFloat (x : Q).

(** The float operand that [v * 0.03] multiplies. *)
Definition as_float (v : PyNum) : Q :=
  match v with
  | PyInt n => Py.of_int n
  | PyFloat x => x
  end.

(** The dictionary [features] that the analysis builds from the sliders. *)
Definition features_dict (sliders : Features) : gmap string PyNum :=
  <["salary_delay_days" := PyInt (salary_delay_days sliders)]>
  (<["savings_drop_pct" := PyFloat (savings_drop_pct sliders)]>
  (<["utility_payment_delay_days" := PyInt (utility_payment_delay_days sliders)]>
  (<["discretionary_spend_drop_pct" := PyFloat (discretionary_spend_drop_pct sliders)]>
  (<["atm_withdrawal_increase" := PyInt (atm_withdrawal_increase sliders)]>
  (<["upi_lending_txn_count" := PyInt (upi_lending_txn_count sliders)]>
  (<["failed_autodebit_count" := PyInt (failed_autodebit_count sliders)]> ∅)))))).

(** The weighted sum of [mock_predict] on a dictionary: the seven
    subscripts are evaluated from left to right, and the first key that is
    missing raises. *)
Definition dict_raw_risk_score (features : gmap string PyNum) : Raised + Q :=
  salary ← subscript features "salary_delay_days";
  savings ← subscript features "savings_drop_pct";
  utility ← subscript features "utility_payment_delay_days";
  spending ← subscript features "discretionary_spend_drop_pct";
  atm ← subscript features "atm_withdrawal_increase";
  upi ← subscript features "upi_lending_txn_count";
  failed ← subscript features "failed_autodebit_count";
  mret (as_float salary * 0.03 +
        as_float savings * 0.4 +
        as_float utility * 0.02 +
        as_float spending * 0.2 +
        as_float atm * 0.02 +
        as_float upi * 0.05 +
        as_float failed * 0.08).

(** The process-wide random source, seen through the only call the program
    makes of it: [uniform_draws] lists the values that the successive calls
    [random.uniform(-0.05, 0.05)] return, [consumed] counts the calls made. *)
Record RandomSource : Type := mkRandomSource {
  uniform_draws : nat -> Q;
  consumed : nat
}.

Definition random_uniform (rng : RandomSource) : Q * RandomSource :=
  (uniform_draws rng (consumed rng),
   mkRandomSource (uniform_draws rng) (S (consumed rng))).

(** [mock_predict] on a dictionary and with the random source as state:
    the sum is computed first, the draw happens after it. *)
Definition mock_predict_dict (features : gmap string PyNum) (rng : RandomSource)
    : (Raised + Q * string) * RandomSource :=
  match dict_raw_risk_score features with
  | inl e => (inl e, rng)
  | inr risk_score =>
      let '(jitter, rng) := random_uniform rng in
      let risk_score := Py.min 1.0 (risk_score + jitter) in
      let risk_level := risk_level_of risk_score in
      (inr (risk_score, risk_level), rng)
  end.

(** The four kinds of banner. *)
Inductive BannerKind : Type :=
  | st_error | st_warning | st_info | st_success.

(** The two line feeds between headline and recommendation. *)
Definition blank_line : string :=
  String (Ascii.ascii_of_nat 10) (String (Ascii.ascii_of_nat 10) EmptyString).

(** The banner under 'Recommended Action': its kind and its text. *)
Definition banner (risk_level recommendation : string) : BannerKind * string :=
  if String.eqb risk_level "Critical" then
    (st_error, "🚨 **CRITICAL RISK**" +:+ blank_line +:+ recommendation)
  else if String.eqb risk_level "High" then
    (st_warning, "⚠️ **HIGH RISK**" +:+ blank_line +:+ recommendation)
  else if String.eqb risk_level "Medium" then
    (st_info, "ℹ️ **MEDIUM RISK**" +:+ blank_line +:+ recommendation)
  else
    (st_success, "✅ **LOW RISK**" +:+ blank_line +:+ recommendation).

(** The gauge: needle value, axis, bar colour, background steps and the
    value of the red threshold line. *)
Record Gauge : Type := mkGauge {
  gauge_value : Q;
  gauge_axis : Q * Q;
  gauge_bar_color : string;
  gauge_steps : list (Q * Q * string);
  gauge_threshold : Q
}.

Definition risk_gauge (risk_score : Q) (bar_color : string) : Gauge :=
  mkGauge (risk_score * 100) (0, 100) bar_color
    [ (0, 25, "#E8F5E9"); (25, 50, "#FFF9C4");
      (50, 75, "#FFE0B2"); (75, 100, "#FFCDD2") ]
    75.

(** What one press of the 'Analyze Risk' button computes for the page: the
    level metric, the gauge, the banner and the 'Impact' column.  (The texts
    that format a float, the score metric and the 'Value' column, are left
    out.) *)
Record Analysis : Type := mkAnalysis {
  shown_level : string;
  shown_gauge : Gauge;
  shown_banner : BannerKind * string;
  shown_impact : list string
}.

Definition analyze (sliders : Features) (rng : RandomSource)
    : (Raised + Analysis) * RandomSource :=
  let features := features_dict sliders in
  match mock_predict_dict features rng with
  | (inl e, rng) => (inl e, rng)
  | (inr (risk_score, risk_level), rng) =>
      (bar_color ← subscript COLORS risk_level;
       let recommendation := get_recommendation risk_level in
       mret (mkAnalysis risk_level (risk_gauge risk_score bar_color)
               (banner risk_level recommendation) (Impact sliders)),
       rng)
  end.

(** The order of the four levels, Low lowest. *)
Definition severity (risk_level : string) : nat :=
  if String.eqb risk_level "Critical" then 3%nat
  else if String.eqb risk_level "High" then 2%nat
  else if String.eqb risk_level "Medium" then 1%nat
  else 0%nat.

(** All seven labels of a column are the same [label]. *)
Definition all_impacts (label : string) (column : list string) : Prop :=
  column = [label; label; label; label; label; label; label].

(** The seven keys in the order in which [mock_predict] reads them. *)
Definition read_order : list string :=
  [ "salary_delay_days"; "savings_drop_pct"; "utility_payment_delay_days";
    "discretionary_spend_drop_pct"; "atm_withdrawal_increase";
    "upi_lending_txn_count"; "failed_autodebit_count" ].


(** A random source for the scenarios: every draw is 0.0, none made yet. *)
Definition still_source : RandomSource := mkRandomSource (fun _ => 0.0) 0.

(** * Facts about the Python operators *)

Module PyFacts.
Import Py.

Lemma ge_spec x y : ge x y = true <-> y <= x.
Proof. apply Qle_bool_iff. Qed.

Lemma ge_false x y : ge x y = false <-> x < y.
Proof.
  unfold ge. split; intros H.
  - apply Qnot_le_lt. intros Hle. apply Qle_bool_iff in Hle. congruence.
  - destruct (Qle_bool y x) eqn:E; [|reflexivity].
    apply Qle_bool_iff in E. lra.
Qed.

Lemma gt_spec x y : gt x y = true <-> y < x.
Proof.
  unfold gt. rewrite negb_true_iff. apply ge_false.
Qed.

Lemma gt_false x y : gt x y = false <-> x <= y.
Proof.
  unfold gt. rewrite negb_false_iff. apply Qle_bool_iff.
Qed.

Lemma min_le_l a b : min a b <= a.
Proof.
  unfold min. destruct (gt a b) eqn:E; [apply gt_spec in E|]; lra.
Qed.

Lemma min_le_r a b : min a b <= b.
Proof.
  unfold min. destruct (gt a b) eqn:E; [|apply gt_false in E]; lra.
Qed.

Lemma min_r a b : b < a -> min a b = b.
Proof. intros H. unfold min. apply gt_spec in H. now rewrite H. Qed.

Lemma min_l a b : a <= b -> min a b = a.
Proof. intros H. unfold min. apply gt_false in H. now rewrite H. Qed.

Lemma min_glb a b c : c <= a -> c <= b -> c <= min a b.
Proof. intros Ha Hb. unfold min. now destruct (gt a b). Qed.

Lemma min_mono a b b' : b <= b' -> min a b <= min a b'.
Proof.
  intros H. apply min_glb; [apply min_le_l|].
  pose proof (min_le_r a b). lra.
Qed.

Lemma of_int_nonneg n : (0 <= n)%Z -> 0 <= of_int n.
Proof. intros H. unfold of_int. change 0 with (inject_Z 0). now rewrite <- Zle_Qle. Qed.

Lemma of_int_le n m : (n <= m)%Z -> of_int n <= of_int m.
Proof. intros H. unfold of_int. now rewrite <- Zle_Qle. Qed.

End PyFacts.

Import PyFacts.

(** Case analysis on every comparison the goal branches on, each case
    recorded as the order fact it stands for. *)
Ltac cmp_cases :=
  repeat match goal with
  | |- context [Py.ge ?x ?y] =>
      let E := fresh "E" in
      destruct (Py.ge x y) eqn:E; [apply ge_spec in E | apply ge_false in E]
  | |- context [Py.gt ?x ?y] =>
      let E := fresh "E" in
      destruct (Py.gt x y) eqn:E; [apply gt_spec in E | apply gt_false in E]
  | |- context [(?x >? ?y)%Z] => destruct (Z.gtb_spec x y)
  end.

(** * The scorer *)

(** The score of [mock_predict] is the clamp of raw sum plus jitter. *)
Lemma mock_predict_score (features : Features) (jitter : Q) :
  fst (mock_predict features jitter) = Py.min 1.0 (raw_risk_score features + jitter).
Proof. reflexivity. Qed.

(** The level of [mock_predict] is the cascade applied to its score. *)
Lemma mock_predict_level (features : Features) (jitter : Q) :
  snd (mock_predict features jitter) = risk_level_of (fst (mock_predict features jitter)).
Proof. reflexivity. Qed.

(** C1: for every record and every jitter, the raw score that [mock_predict]
    computes before jitter and clamp is the sum over the weight table of
    value times weight, that is salary_delay_days*0.03 + savings_drop_pct*0.40
    + utility_payment_delay_days*0.02 + discretionary_spend_drop_pct*0.20
    + atm_withdrawal_increase*0.02 + upi_lending_txn_count*0.05
    + failed_autodebit_count*0.08; the returned score is the clamp of that
    sum plus the jitter. *)
Theorem raw_score_is_weighted_sum (features : Features) (jitter : Q) :
  raw_risk_score features == weighted_sum (weight_table features) /\
  weighted_sum (weight_table features) ==
    inject_Z (salary_delay_days features) * 0.03 +
    savings_drop_pct features * 0.40 +
    inject_Z (utility_payment_delay_days features) * 0.02 +
    discretionary_spend_drop_pct features * 0.20 +
    inject_Z (atm_withdrawal_increase features) * 0.02 +
    inject_Z (upi_lending_txn_count features) * 0.05 +
    inject_Z (failed_autodebit_count features) * 0.08 /\
  fst (mock_predict features jitter)
    = Py.min 1.0 (raw_risk_score features + jitter).
Proof.
  unfold raw_risk_score, weight_table, Py.of_int; cbn [weighted_sum fst mock_predict].
  repeat split; lra.
Qed.

(** The cascade respects the four bands. *)
Lemma risk_level_of_in_band (s : Q) : in_band s (risk_level_of s).
Proof.
  unfold in_band, risk_level_of.
  cmp_cases; repeat split; intros; try reflexivity; exfalso; lra.
Qed.

(** C2: the level returned with a score follows the bands, first match
    first: at least 0.75 Critical, else at least 0.5 High, else at least 0.25
    Medium, else Low.  A score of exactly 0.75 gives Critical, 0.749999 gives
    High, exactly 0.5 High, exactly 0.25 Medium, anything below 0.25 Low. *)
Theorem risk_level_thresholds :
  (forall features jitter,
     in_band (fst (mock_predict features jitter)) (snd (mock_predict features jitter))) /\
  (forall features jitter,
     fst (mock_predict features jitter) < 0.25 ->
     snd (mock_predict features jitter) = "Low") /\
  (fst (mock_predict (mkFeatures 25 0.0 0 0.0 0 0 0) 0.0) == 0.75 /\
   snd (mock_predict (mkFeatures 25 0.0 0 0.0 0 0 0) 0.0) = "Critical") /\
  (fst (mock_predict (mkFeatures 25 0.0 0 0.0 0 0 0) (-0.000001)) == 0.749999 /\
   snd (mock_predict (mkFeatures 25 0.0 0 0.0 0 0 0) (-0.000001)) = "High") /\
  (fst (mock_predict (mkFeatures 0 0.0 0 0.0 0 10 0) 0.0) == 0.5 /\
   snd (mock_predict (mkFeatures 0 0.0 0 0.0 0 10 0) 0.0) = "High") /\
  (fst (mock_predict (mkFeatures 0 0.0 0 0.0 0 5 0) 0.0) == 0.25 /\
   snd (mock_predict (mkFeatures 0 0.0 0 0.0 0 5 0) 0.0) = "Medium").
Proof.
  split; [|split].
  - intros features jitter. rewrite mock_predict_level. apply risk_level_of_in_band.
  - intros features jitter H.
    destruct (risk_level_of_in_band (fst (mock_predict features jitter)))
      as (_ & _ & _ & HLow).
    rewrite mock_predict_level. apply HLow; lra.
  - repeat split; vm_compute; reflexivity.
Qed.

(** The all-zero record with no jitter scores 0, below 0.25, hence Low. *)
Lemma risk_level_thresholds_witness :
  fst (mock_predict all_zero 0.0) < 0.25 /\ snd (mock_predict all_zero 0.0) = "Low".
Proof.
  split.
  - vm_compute. reflexivity.
  - apply (proj1 (proj2 risk_level_thresholds) all_zero 0.0). vm_compute. reflexivity.
Defined.

(** * The recommendation lookup *)

(** A key outside the table is not found. *)
Lemma recs_lookup_other (risk_level : string) :
  risk_level <> "Critical" -> risk_level <> "High" ->
  risk_level <> "Medium" -> risk_level <> "Low" ->
  recs !! risk_level = None.
Proof.
  intros HC HH HM HL. unfold recs.
  rewrite !lookup_insert_ne by congruence. apply lookup_empty.
Qed.

(** C5: [get_recommendation] maps the four levels to their four texts and
    every other string to "Monitor regularly"; it returns one of these five
    texts on every input, and equal inputs give equal texts. *)
Theorem get_recommendation_total :
  get_recommendation "Critical"
    = "Immediate intervention - Offer payment holiday or loan restructuring" /\
  get_recommendation "High" = "Priority contact - Propose debt consolidation plan" /\
  get_recommendation "Medium" = "Schedule check-in call - Offer financial counseling" /\
  get_recommendation "Low" = "Continue standard monitoring" /\
  (forall risk_level : string,
     risk_level <> "Critical" -> risk_level <> "High" ->
     risk_level <> "Medium" -> risk_level <> "Low" ->
     get_recommendation risk_level = "Monitor regularly") /\
  (forall risk_level : string,
     get_recommendation risk_level ∈
       [ "Immediate intervention - Offer payment holiday or loan restructuring";
         "Priority contact - Propose debt consolidation plan";
         "Schedule check-in call - Offer financial counseling";
         "Continue standard monitoring";
         "Monitor regularly" ]) /\
  (forall l1 l2 : string, l1 = l2 -> get_recommendation l1 = get_recommendation l2).
Proof.
  assert (Hother : forall risk_level : string,
     risk_level <> "Critical" -> risk_level <> "High" ->
     risk_level <> "Medium" -> risk_level <> "Low" ->
     get_recommendation risk_level = "Monitor regularly").
  { intros l HC HH HM HL. unfold get_recommendation.
    now rewrite recs_lookup_other. }
  repeat split; try (vm_compute; reflexivity); try exact Hother.
  - intros l.
    destruct (decide (l = "Critical")) as [->|HC]; [vm_compute; set_solver|].
    destruct (decide (l = "High")) as [->|HH]; [vm_compute; set_solver|].
    destruct (decide (l = "Medium")) as [->|HM]; [vm_compute; set_solver|].
    destruct (decide (l = "Low")) as [->|HL]; [vm_compute; set_solver|].
    rewrite Hother by assumption. set_solver.
  - intros l1 l2 ->. reflexivity.
Qed.

(** An unknown level and the empty string fall to the default text. *)
Lemma get_recommendation_total_witness :
  get_recommendation "Unknown" = "Monitor regularly" /\
  get_recommendation "" = "Monitor regularly" /\
  get_recommendation "critical" = "Monitor regularly".
Proof.
  destruct get_recommendation_total as (_ & _ & _ & _ & Hother & _).
  repeat split; apply Hother; discriminate.
Defined.

(** * The impact column *)

Lemma gt_compat (x x' y : Q) : x == x' -> Py.gt x y = Py.gt x' y.
Proof. intros H. unfold Py.gt. now rewrite H. Qed.

(** The conditional expression on an integer indicator is three-tier. *)
Lemma three_tier_int (hi mid v : Z) :
  three_tier Z.lt hi mid v
    (Some (if (v >? hi)%Z then "High" else if (v >? mid)%Z then "Medium" else "Low")).
Proof.
  unfold three_tier.
  cmp_cases; repeat split; intros; try reflexivity; exfalso; lia.
Qed.

(** The conditional expression on a real indicator is three-tier. *)
Lemma three_tier_float (hi mid v : Q) :
  three_tier Qlt hi mid v
    (Some (if Py.gt v hi then "High" else if Py.gt v mid then "Medium" else "Low")).
Proof.
  unfold three_tier.
  cmp_cases; repeat split; intros; try reflexivity; exfalso; lra.
Qed.

(** C6: each of the seven labels is the three-tier function of its own
    indicator with strict comparisons, High tested first: thresholds 15 and 7
    for salary_delay_days and utility_payment_delay_days, 0.5 and 0.2 for
    savings_drop_pct and discretionary_spend_drop_pct, 10 and 5 for
    atm_withdrawal_increase, 5 and 2 for upi_lending_txn_count, 2 and 0 for
    failed_autodebit_count.  A salary delay of 16 is High, 8 Medium, 7 Low. *)
Theorem impact_three_tier :
  (forall features : Features,
     length (Impact features) = 7%nat /\
     three_tier Z.lt 15%Z 7%Z (salary_delay_days features)
       (impact_of SalaryDelay features) /\
     three_tier Qlt 0.5 0.2 (savings_drop_pct features)
       (impact_of SavingsDrop features) /\
     three_tier Z.lt 15%Z 7%Z (utility_payment_delay_days features)
       (impact_of UtilityDelay features) /\
     three_tier Qlt 0.5 0.2 (discretionary_spend_drop_pct features)
       (impact_of SpendingDrop features) /\
     three_tier Z.lt 10%Z 5%Z (atm_withdrawal_increase features)
       (impact_of AtmIncrease features) /\
     three_tier Z.lt 5%Z 2%Z (upi_lending_txn_count features)
       (impact_of LendingApps features) /\
     three_tier Z.lt 2%Z 0%Z (failed_autodebit_count features)
       (impact_of FailedDebits features)) /\
  impact_of SalaryDelay (mkFeatures 16 0.0 0 0.0 0 0 0) = Some "High" /\
  impact_of SalaryDelay (mkFeatures 8 0.0 0 0.0 0 0 0) = Some "Medium" /\
  impact_of SalaryDelay (mkFeatures 7 0.0 0 0.0 0 0 0) = Some "Low".
Proof.
  split; [|repeat split].
  intros features. split; [reflexivity|].
  unfold impact_of, Impact, factors_df_Impact; cbn [row lookup list_lookup].
  repeat split; first [apply three_tier_int | apply three_tier_float].
Qed.

(** Salary delays of 20, 10 and 3 days fall into the three tiers. *)
Lemma impact_three_tier_witness :
  impact_of SalaryDelay (mkFeatures 20 0.0 0 0.0 0 0 0) = Some "High" /\
  impact_of SalaryDelay (mkFeatures 10 0.0 0 0.0 0 0 0) = Some "Medium" /\
  impact_of SalaryDelay (mkFeatures 3 0.0 0 0.0 0 0 0) = Some "Low" /\
  impact_of SavingsDrop (mkFeatures 0 0.5 0 0.0 0 0 0) = Some "Medium".
Proof.
  split; [|split; [|split]].
  - apply (proj1 (proj2 (proj1 impact_three_tier (mkFeatures 20 0.0 0 0.0 0 0 0)))).
    cbn. lia.
  - apply (proj1 (proj2 (proj1 impact_three_tier (mkFeatures 10 0.0 0 0.0 0 0 0)))).
    all: cbn; lia.
  - apply (proj1 (proj2 (proj1 impact_three_tier (mkFeatures 3 0.0 0 0.0 0 0 0)))).
    all: cbn; lia.
  - apply (proj1 (proj2 (proj2 (proj1 impact_three_tier (mkFeatures 0 0.5 0 0.0 0 0 0))))).
    all: cbn; lra.
Defined.

(** A label depends on its own indicator only. *)
Lemma impact_of_agree (i : Indicator) (f1 f2 : Features) :
  agree_on i f1 f2 -> impact_of i f1 = impact_of i f2.
Proof.
  destruct i; unfold agree_on, impact_of, Impact, factors_df_Impact;
    cbn [row lookup list_lookup]; intros H.
  all: try (now rewrite H).
  all: now rewrite !(gt_compat _ _ _ H).
Qed.

(** C8: when two records agree on every indicator but one, the labels of
    the indicators they agree on are the same in both tables. *)
Theorem impact_independent (changed : Indicator) (f1 f2 : Features) :
  (forall i, i <> changed -> agree_on i f1 f2) ->
  forall i, i <> changed -> impact_of i f1 = impact_of i f2.
Proof.
  intros Hagree i Hi. apply impact_of_agree. now apply Hagree.
Qed.

(** Raising only the salary delay from 0 to 16 changes the first label and
    no other. *)
Lemma impact_independent_witness :
  (forall i, i <> SalaryDelay ->
     impact_of i all_zero = impact_of i (mkFeatures 16 0.0 0 0.0 0 0 0)) /\
  impact_of SalaryDelay all_zero <> impact_of SalaryDelay (mkFeatures 16 0.0 0 0.0 0 0 0).
Proof.
  split.
  - apply (impact_independent SalaryDelay all_zero (mkFeatures 16 0.0 0 0.0 0 0 0)).
    intros i Hi. destruct i; cbn; first [reflexivity | congruence].
  - vm_compute. discriminate.
Defined.

(** * The scenario with every slider at its maximum *)

(** C7: for the record 30, 1.0, 30, 1.0, 20, 10, 5 and jitter 0.0 the raw sum
    is 3.4, the score 1.0, the level Critical, the recommendation the
    immediate-intervention text, and the seven impact labels are High. *)
Theorem all_max_scenario :
  raw_risk_score all_max == 3.4 /\
  fst (mock_predict all_max 0.0) == 1.0 /\
  snd (mock_predict all_max 0.0) = "Critical" /\
  get_recommendation (snd (mock_predict all_max 0.0))
    = "Immediate intervention - Offer payment holiday or loan restructuring" /\
  Impact all_max = ["High"; "High"; "High"; "High"; "High"; "High"; "High"].
Proof.
  repeat split; vm_compute; reflexivity.
Qed.

(** * Bounds on the score *)

Section InDomain.

Variable features : Features.
Variable jitter : Q.
Hypothesis Hdom : in_domain features = true.
Hypothesis Hjit : jitter_in_range jitter = true.

Lemma in_domain_bounds :
  (0 <= salary_delay_days features <= 30)%Z /\
  0 <= savings_drop_pct features <= 1 /\
  (0 <= utility_payment_delay_days features <= 30)%Z /\
  0 <= discretionary_spend_drop_pct features <= 1 /\
  (0 <= atm_withdrawal_increase features <= 20)%Z /\
  (0 <= upi_lending_txn_count features <= 10)%Z /\
  (0 <= failed_autodebit_count features <= 5)%Z.
Proof using Hdom.
  unfold in_domain in Hdom.
  rewrite !andb_true_iff, !Z.leb_le, !Qle_bool_iff in Hdom.
  repeat split; try tauto; lra.
Qed.

Lemma jitter_bounds : -0.05 <= jitter <= 0.05.
Proof using Hjit.
  unfold jitter_in_range in Hjit.
  rewrite andb_true_iff, !Qle_bool_iff in Hjit. lra.
Qed.

(** Inside the domains no term of the sum is negative. *)
Lemma raw_risk_score_nonneg : 0 <= raw_risk_score features.
Proof using Hdom.
  destruct in_domain_bounds as (Hs & Hv & Hu & Hd & Ha & Hl & Hf).
  pose proof (of_int_nonneg _ (proj1 Hs)).
  pose proof (of_int_nonneg _ (proj1 Hu)).
  pose proof (of_int_nonneg _ (proj1 Ha)).
  pose proof (of_int_nonneg _ (proj1 Hl)).
  pose proof (of_int_nonneg _ (proj1 Hf)).
  unfold raw_risk_score. lra.
Qed.


(** The clamp keeps the score between -0.05 and 1. *)
Lemma score_bounds : -0.05 <= fst (mock_predict features jitter) <= 1.0.
Proof using Hdom Hjit.
  rewrite mock_predict_score. split.
  - apply min_glb; [lra|].
    pose proof raw_risk_score_nonneg. pose proof jitter_bounds. lra.
  - apply min_le_l.
Qed.

End InDomain.

(** Without the clamp taking effect the score is the plain sum. *)
Lemma score_unclamped (features : Features) (jitter : Q) :
  raw_risk_score features + jitter <= 1.0 ->
  fst (mock_predict features jitter) == raw_risk_score features + jitter.
Proof.
  intros H. rewrite mock_predict_score. unfold Py.min.
  cmp_cases; [reflexivity | lra].
Qed.

(** C3, at the record the sliders start from, with the lowest jitter: the
    record is inside the domains, the jitter inside its range, and the score
    returned is -0.05, below the lower end 0.0 of the stated invariant; the
    level is Low. *)
Theorem all_zero_lowest_jitter_score :
  in_domain all_zero = true /\
  jitter_in_range (-0.05) = true /\
  fst (mock_predict all_zero (-0.05)) == -0.05 /\
  ~ 0.0 <= fst (mock_predict all_zero (-0.05)) /\
  snd (mock_predict all_zero (-0.05)) = "Low".
Proof.
  split; [reflexivity|]. split; [reflexivity|].
  split; [vm_compute; reflexivity|]. split; [|vm_compute; reflexivity].
  vm_compute. intros H. now apply H.
Qed.

(** C4: inside the domains and for a jitter in range the score is at most
    1.0; it is [min(1.0, raw + jitter)], with no floor: below 1.0 it is the
    plain sum raw + jitter, negative when that sum is negative. *)
Theorem score_upper_clamp_only (features : Features) (jitter : Q) :
  in_domain features = true ->
  jitter_in_range jitter = true ->
  fst (mock_predict features jitter) <= 1.0 /\
  fst (mock_predict features jitter) = Py.min 1.0 (raw_risk_score features + jitter) /\
  (raw_risk_score features + jitter <= 1.0 ->
     fst (mock_predict features jitter) == raw_risk_score features + jitter) /\
  (raw_risk_score features + jitter < 0.0 ->
     fst (mock_predict features jitter) < 0.0).
Proof.
  intros Hdom Hjit. split; [apply (score_bounds _ _ Hdom Hjit)|].
  split; [reflexivity|]. split; [apply score_unclamped|].
  intros H. rewrite score_unclamped; lra.
Qed.

(** The all-maximum record with the highest jitter is clamped to 1.0; the
    all-zero record with the lowest jitter keeps its negative sum. *)
Lemma score_upper_clamp_only_witness :
  fst (mock_predict all_max 0.05) <= 1.0 /\
  fst (mock_predict all_zero (-0.05)) < 0.0.
Proof.
  split.
  - apply (score_upper_clamp_only all_max 0.05); reflexivity.
  - apply (score_upper_clamp_only all_zero (-0.05)); reflexivity.
Defined.

(** C9 as stated fails in its last part: for the all-maximum record and
    jitter 0.0, both admissible, raw + jitter is 3.4 while the score is 1.0,
    so the score does fall below raw + jitter. *)
Lemma score_below_raw_plus_jitter :
  ~ (forall features jitter,
       in_domain features = true -> jitter_in_range jitter = true ->
       -0.05 <= fst (mock_predict features jitter) /\
       (fst (mock_predict features jitter) < 0.0 -> raw_risk_score features < 0.05) /\
       raw_risk_score features + jitter <= fst (mock_predict features jitter)).
Proof.
  intros H.
  destruct (H all_max 0.0 eq_refl eq_refl) as (_ & _ & Hbelow).
  vm_compute in Hbelow. now apply Hbelow.
Qed.

(** C9, amended: inside the domains and for a jitter in range the score is
    at least -0.05; it is negative only when the raw sum is below 0.05; and
    it does not fall below raw + jitter as long as raw + jitter is at most
    1.0 (above that it is the clamp value 1.0). *)
Theorem score_lower_bound (features : Features) (jitter : Q) :
  in_domain features = true ->
  jitter_in_range jitter = true ->
  -0.05 <= fst (mock_predict features jitter) /\
  (fst (mock_predict features jitter) < 0.0 -> raw_risk_score features < 0.05) /\
  (raw_risk_score features + jitter <= 1.0 ->
     raw_risk_score features + jitter <= fst (mock_predict features jitter)) /\
  (1.0 < raw_risk_score features + jitter ->
     fst (mock_predict features jitter) = 1.0).
Proof.
  intros Hdom Hjit.
  pose proof (jitter_bounds _ Hjit) as Hj.
  split; [apply (score_bounds _ _ Hdom Hjit)|]. split; [|split].
  - intros Hneg.
    destruct (Qlt_le_dec 1.0 (raw_risk_score features + jitter)) as [Hgt|Hle].
    + rewrite mock_predict_score, min_l in Hneg; lra.
    + rewrite (score_unclamped _ _ Hle) in Hneg. lra.
  - intros Hle. rewrite (score_unclamped _ _ Hle). lra.
  - intros Hgt. rewrite mock_predict_score. apply min_l. lra.
Qed.

(** Every slider at zero with the lowest jitter: the score is -0.05, the
    bound is attained, and the raw sum 0 is below 0.05. *)
Lemma score_lower_bound_witness :
  -0.05 <= fst (mock_predict all_zero (-0.05)) /\
  raw_risk_score all_zero < 0.05 /\
  fst (mock_predict all_max 0.0) = 1.0.
Proof.
  destruct (score_lower_bound all_zero (-0.05) eq_refl eq_refl) as (Hlow & Hneg & _).
  destruct (score_lower_bound all_max 0.0 eq_refl eq_refl) as (_ & _ & _ & Hclamp).
  split; [exact Hlow|]. split.
  - apply Hneg. reflexivity.
  - apply Hclamp. reflexivity.
Defined.

(** * Monotonicity *)

(** The raw sum grows with every indicator: all weights are positive. *)
Lemma raw_risk_score_mono (f1 f2 : Features) :
  fieldwise_le f1 f2 -> raw_risk_score f1 <= raw_risk_score f2.
Proof.
  intros (Hs & Hv & Hu & Hd & Ha & Hl & Hf).
  apply of_int_le in Hs, Hu, Ha, Hl, Hf.
  unfold raw_risk_score. lra.
Qed.

(** C10: for a fixed jitter the score is monotone: a record that is
    field-wise at least another one scores at least as much. *)
Theorem score_monotone (f1 f2 : Features) (jitter : Q) :
  fieldwise_le f1 f2 ->
  fst (mock_predict f1 jitter) <= fst (mock_predict f2 jitter).
Proof.
  intros Hle. rewrite !mock_predict_score. apply min_mono.
  pose proof (raw_risk_score_mono _ _ Hle). lra.
Qed.

(** Raising the lending-app count from 2 to 7, all else equal, raises the
    score from 0.13 to 0.38 at jitter 0.03. *)
Lemma score_monotone_witness :
  fst (mock_predict (mkFeatures 0 0.0 0 0.0 0 2 0) 0.03)
    <= fst (mock_predict (mkFeatures 0 0.0 0 0.0 0 7 0) 0.03).
Proof.
  apply (score_monotone (mkFeatures 0 0.0 0 0.0 0 2 0) (mkFeatures 0 0.0 0 0.0 0 7 0) 0.03).
  unfold fieldwise_le; cbn. repeat split; first [lia | lra].
Defined.

(** * The scenarios on binary64 numbers

    The concrete runs used above give the same scores and levels when every
    operation rounds as the machine does. *)

Lemma binary64_all_max :
  Binary64.raw_risk_score (Binary64.mkFeatures 30 1.0 30 1.0 20 10 5) = 3.4%float /\
  Binary64.mock_predict (Binary64.mkFeatures 30 1.0 30 1.0 20 10 5) 0.0
    = (1.0%float, "Critical").
Proof. split; vm_compute; reflexivity. Qed.

Lemma binary64_all_zero_lowest_jitter :
  Binary64.mock_predict (Binary64.mkFeatures 0 0.0 0 0.0 0 0 0) (-0.05)
    = ((-0.05)%float, "Low") /\
  PrimFloat.ltb (-0.05) 0.0 = true.
Proof. split; vm_compute; reflexivity. Qed.

Lemma binary64_boundaries :
  Binary64.mock_predict (Binary64.mkFeatures 25 0.0 0 0.0 0 0 0) 0.0
    = (0.75%float, "Critical") /\
  Binary64.mock_predict (Binary64.mkFeatures 25 0.0 0 0.0 0 0 0) (-0.000001)
    = (0.749999%float, "High") /\
  Binary64.mock_predict (Binary64.mkFeatures 0 0.0 0 0.0 0 10 0) 0.0
    = (0.5%float, "High") /\
  Binary64.mock_predict (Binary64.mkFeatures 0 0.0 0 0.0 0 5 0) 0.0
    = (0.25%float, "Medium").
Proof. repeat split; vm_compute; reflexivity. Qed.

(** * Levels: range, order, and the reach of the jitter *)

(** The cascade yields one of four names, each with its band. *)
Lemma risk_level_of_cases (s : Q) :
  (risk_level_of s = "Critical" /\ 0.75 <= s) \/
  (risk_level_of s = "High" /\ 0.5 <= s < 0.75) \/
  (risk_level_of s = "Medium" /\ 0.25 <= s < 0.5) \/
  (risk_level_of s = "Low" /\ s < 0.25).
Proof.
  unfold risk_level_of. cmp_cases; [left | right; left | right; right; left | right; right; right];
    split; try reflexivity; lra.
Qed.

(** A higher score never gets a lower level. *)
Lemma severity_mono (s1 s2 : Q) :
  s1 <= s2 -> (severity (risk_level_of s1) <= severity (risk_level_of s2))%nat.
Proof.
  intros H.
  destruct (risk_level_of_cases s1) as [[-> ?]|[[-> ?]|[[-> ?]|[-> ?]]]];
  destruct (risk_level_of_cases s2) as [[-> ?]|[[-> ?]|[[-> ?]|[-> ?]]]];
    cbn; try lia; exfalso; lra.
Qed.

(** Scores a tenth apart are at most one level apart. *)
Lemma severity_close (s1 s2 : Q) :
  s1 <= s2 + 0.1 -> (severity (risk_level_of s1) <= severity (risk_level_of s2) + 1)%nat.
Proof.
  intros H.
  destruct (risk_level_of_cases s1) as [[-> ?]|[[-> ?]|[[-> ?]|[-> ?]]]];
  destruct (risk_level_of_cases s2) as [[-> ?]|[[-> ?]|[[-> ?]|[-> ?]]]];
    cbn; try lia; exfalso; lra.
Qed.

(** The clamp does not stretch distances. *)
Lemma min_close (a b d : Q) : 0 <= d -> a <= b + d -> Py.min 1.0 a <= Py.min 1.0 b + d.
Proof.
  intros Hd H. unfold Py.min. cmp_cases; lra.
Qed.

(** X1: the level that [mock_predict] returns is always one of Critical,
    High, Medium, Low; [COLORS] and [recs] both hold it as a key, so the
    colour subscript does not raise and the recommendation is never the
    default text. *)
Theorem predicted_level_is_known (features : Features) (jitter : Q) :
  snd (mock_predict features jitter) ∈ ["Critical"; "High"; "Medium"; "Low"] /\
  is_Some (COLORS !! snd (mock_predict features jitter)) /\
  is_Some (recs !! snd (mock_predict features jitter)) /\
  get_recommendation (snd (mock_predict features jitter)) <> "Monitor regularly".
Proof.
  rewrite mock_predict_level.
  destruct (risk_level_of_cases (fst (mock_predict features jitter)))
    as [[-> _]|[[-> _]|[[-> _]|[-> _]]]];
    (split; [set_solver|]); (split; [vm_compute; eauto|]);
    (split; [vm_compute; eauto|]); vm_compute; discriminate.
Qed.

(** X2: score and level are monotone in the record and in the jitter
    together: raising any indicator or the jitter never lowers the score and
    never lowers the level. *)
Theorem level_monotone (f1 f2 : Features) (j1 j2 : Q) :
  fieldwise_le f1 f2 -> j1 <= j2 ->
  fst (mock_predict f1 j1) <= fst (mock_predict f2 j2) /\
  (severity (snd (mock_predict f1 j1)) <= severity (snd (mock_predict f2 j2)))%nat.
Proof.
  intros Hle Hj.
  assert (Hs : fst (mock_predict f1 j1) <= fst (mock_predict f2 j2)).
  { rewrite !mock_predict_score. apply min_mono.
    pose proof (raw_risk_score_mono _ _ Hle). lra. }
  split; [exact Hs|]. rewrite !mock_predict_level. now apply severity_mono.
Qed.

(** One more failed auto-debit and a higher jitter lift the score from 0.45
    (Medium) to 0.58 (High). *)
Lemma level_monotone_witness :
  (severity (snd (mock_predict (mkFeatures 10 0.0 0 0.0 0 0 2) (-0.01)))
   <= severity (snd (mock_predict (mkFeatures 10 0.0 0 0.0 0 0 3) 0.04)))%nat /\
  snd (mock_predict (mkFeatures 10 0.0 0 0.0 0 0 2) (-0.01)) = "Medium" /\
  snd (mock_predict (mkFeatures 10 0.0 0 0.0 0 0 3) 0.04) = "High".
Proof.
  split; [|split; reflexivity].
  apply (level_monotone (mkFeatures 10 0.0 0 0.0 0 0 2) (mkFeatures 10 0.0 0 0.0 0 0 3)
           (-0.01) 0.04).
  - unfold fieldwise_le; cbn. repeat split; first [lia | lra].
  - lra.
Defined.

(** X3: for one record, two draws of the jitter give levels at most one
    step apart. *)
Theorem jitter_moves_one_level (features : Features) (j1 j2 : Q) :
  jitter_in_range j1 = true -> jitter_in_range j2 = true ->
  (severity (snd (mock_predict features j1))
   <= severity (snd (mock_predict features j2)) + 1)%nat /\
  (severity (snd (mock_predict features j2))
   <= severity (snd (mock_predict features j1)) + 1)%nat.
Proof.
  intros H1 H2.
  pose proof (jitter_bounds _ H1). pose proof (jitter_bounds _ H2).
  rewrite !mock_predict_level, !mock_predict_score.
  split; apply severity_close, min_close; lra.
Qed.

(** Lending-app count 10 gives raw 0.5: Medium at the lowest draw, High at
    the highest. *)
Lemma jitter_moves_one_level_witness :
  (severity (snd (mock_predict (mkFeatures 0 0.0 0 0.0 0 10 0) 0.05))
   <= severity (snd (mock_predict (mkFeatures 0 0.0 0 0.0 0 10 0) (-0.05))) + 1)%nat /\
  snd (mock_predict (mkFeatures 0 0.0 0 0.0 0 10 0) 0.05) = "High" /\
  snd (mock_predict (mkFeatures 0 0.0 0 0.0 0 10 0) (-0.05)) = "Medium".
Proof.
  split; [|split; reflexivity].
  apply (jitter_moves_one_level (mkFeatures 0 0.0 0 0.0 0 10 0) 0.05 (-0.05)); reflexivity.
Defined.

(** The clamp either passes its argument or replaces it by 1.0. *)
Lemma min_cases (x : Q) :
  (x < 1.0 /\ Py.min 1.0 x = x) \/ (1.0 <= x /\ Py.min 1.0 x = 1.0).
Proof.
  destruct (Qlt_le_dec x 1.0) as [Hlt|Hge]; [left | right]; split; trivial.
  - now apply min_r.
  - now apply min_l.
Qed.

(** The level at a given raw sum and jitter, by bands of their sum. *)
Lemma level_of_sum (features : Features) (jitter : Q) :
  (0.75 <= raw_risk_score features + jitter ->
     snd (mock_predict features jitter) = "Critical") /\
  (0.5 <= raw_risk_score features + jitter < 0.75 ->
     snd (mock_predict features jitter) = "High") /\
  (0.25 <= raw_risk_score features + jitter < 0.5 ->
     snd (mock_predict features jitter) = "Medium") /\
  (raw_risk_score features + jitter < 0.25 ->
     snd (mock_predict features jitter) = "Low").
Proof.
  rewrite mock_predict_level, mock_predict_score.
  destruct (min_cases (raw_risk_score features + jitter)) as [[Hlt ->]|[Hge ->]].
  - destruct (risk_level_of_cases (raw_risk_score features + jitter))
      as [[-> ?]|[[-> ?]|[[-> ?]|[-> ?]]]];
      (split; [|split; [|split]]);
      [intros Hs | intros [Hlo Hhi] | intros [Hlo Hhi] | intros Hs ..];
      try reflexivity; exfalso; lra.
  - destruct (risk_level_of_cases 1.0)
      as [[-> ?]|[[-> ?]|[[-> ?]|[-> ?]]]];
      (split; [|split; [|split]]);
      [intros Hs | intros [Hlo Hhi] | intros [Hlo Hhi] | intros Hs ..];
      try reflexivity; exfalso; lra.
Qed.





(** X6: a raw sum of at least 0.05 keeps the score inside [0, 1] for every
    jitter in range; the negative scores are confined to raw sums below
    0.05. *)
Theorem score_in_unit_interval (features : Features) (jitter : Q) :
  0.05 <= raw_risk_score features ->
  jitter_in_range jitter = true ->
  0.0 <= fst (mock_predict features jitter) <= 1.0.
Proof.
  intros Hraw Hj. pose proof (jitter_bounds _ Hj).
  rewrite mock_predict_score. split.
  - apply min_glb; lra.
  - apply min_le_l.
Qed.

(** One lending-app transaction (raw 0.05) with the lowest jitter scores
    exactly 0. *)
Lemma score_in_unit_interval_witness :
  0.0 <= fst (mock_predict (mkFeatures 0 0.0 0 0.0 0 1 0) (-0.05)) <= 1.0.
Proof.
  apply (score_in_unit_interval (mkFeatures 0 0.0 0 0.0 0 1 0) (-0.05));
    first [reflexivity | vm_compute; discriminate].
Defined.



(** * The impact column against the level *)

Lemma tier_is_High (a b : bool) :
  (if a then "High" else if b then "Medium" else "Low") = "High" -> a = true.
Proof. destruct a, b; intros H; first [reflexivity | discriminate H]. Qed.

Lemma tier_is_Low (a b : bool) :
  (if a then "High" else if b then "Medium" else "Low") = "Low" ->
  a = false /\ b = false.
Proof. destruct a, b; intros H; first [now split | discriminate H]. Qed.

(** Seven High labels bound every indicator from below. *)
Lemma all_High_bounds (features : Features) :
  all_impacts "High" (Impact features) ->
  (16 <= salary_delay_days features)%Z /\ 0.5 < savings_drop_pct features /\
  (16 <= utility_payment_delay_days features)%Z /\
  0.5 < discretionary_spend_drop_pct features /\
  (11 <= atm_withdrawal_increase features)%Z /\
  (6 <= upi_lending_txn_count features)%Z /\
  (3 <= failed_autodebit_count features)%Z.
Proof.
  unfold all_impacts, Impact, factors_df_Impact. intros H.
  injection H as H1 H2 H3 H4 H5 H6 H7.
  apply tier_is_High in H1, H2, H3, H4, H5, H6, H7.
  apply Z.gtb_lt in H1, H3, H5, H6, H7. apply gt_spec in H2, H4.
  repeat split; first [lia | assumption].
Qed.

(** Seven Low labels bound every indicator from above. *)
Lemma all_Low_bounds (features : Features) :
  all_impacts "Low" (Impact features) ->
  (salary_delay_days features <= 7)%Z /\ savings_drop_pct features <= 0.2 /\
  (utility_payment_delay_days features <= 7)%Z /\
  discretionary_spend_drop_pct features <= 0.2 /\
  (atm_withdrawal_increase features <= 5)%Z /\
  (upi_lending_txn_count features <= 2)%Z /\
  (failed_autodebit_count features <= 0)%Z.
Proof.
  unfold all_impacts, Impact, factors_df_Impact. intros H.
  injection H as H1 H2 H3 H4 H5 H6 H7.
  apply tier_is_Low in H1, H2, H3, H4, H5, H6, H7.
  destruct H1 as [_ H1], H2 as [_ H2], H3 as [_ H3], H4 as [_ H4],
    H5 as [_ H5], H6 as [_ H6], H7 as [_ H7].
  rewrite Z.gtb_ltb, Z.ltb_ge in H1, H3, H5, H6, H7. apply gt_false in H2, H4.
  repeat split; assumption.
Qed.

(** X8: when all seven impact labels are High, the score is 1.0 and the
    level Critical, whatever the jitter in range. *)
Theorem all_High_is_Critical (features : Features) (jitter : Q) :
  all_impacts "High" (Impact features) ->
  jitter_in_range jitter = true ->
  fst (mock_predict features jitter) = 1.0 /\
  snd (mock_predict features jitter) = "Critical".
Proof.
  intros Hall Hj. pose proof (jitter_bounds _ Hj).
  destruct (all_High_bounds _ Hall) as (Hs & Hv & Hu & Hd & Ha & Hl & Hf).
  apply of_int_le in Hs, Hu, Ha, Hl, Hf.
  assert (Hraw : 1.86 <= raw_risk_score features).
  { unfold raw_risk_score. unfold Py.of_int, inject_Z in *. lra. }
  assert (Hscore : fst (mock_predict features jitter) = 1.0).
  { rewrite mock_predict_score. apply min_l. lra. }
  split; [exact Hscore|]. rewrite mock_predict_level, Hscore. reflexivity.
Qed.

(** The lowest record with seven High labels, at the lowest jitter. *)
Lemma all_High_is_Critical_witness :
  snd (mock_predict (mkFeatures 16 0.55 16 0.55 11 6 3) (-0.05)) = "Critical".
Proof.
  apply (all_High_is_Critical (mkFeatures 16 0.55 16 0.55 11 6 3) (-0.05)); reflexivity.
Defined.

(** X9: seven Low labels do not make the level Low.  They bound the raw sum
    by 0.67, so the level is never Critical; but the record 7, 0.2, 7, 0.2,
    5, 2, 0 carries seven Low labels and is High for every jitter in
    range. *)
Theorem all_Low_is_not_Critical :
  (forall features jitter,
     all_impacts "Low" (Impact features) -> jitter_in_range jitter = true ->
     raw_risk_score features <= 0.67 /\
     snd (mock_predict features jitter) <> "Critical") /\
  all_impacts "Low" (Impact (mkFeatures 7 0.2 7 0.2 5 2 0)) /\
  (forall jitter, jitter_in_range jitter = true ->
     snd (mock_predict (mkFeatures 7 0.2 7 0.2 5 2 0) jitter) = "High").
Proof.
  split; [|split].
  - intros features jitter Hall Hj. pose proof (jitter_bounds _ Hj).
    destruct (all_Low_bounds _ Hall) as (Hs & Hv & Hu & Hd & Ha & Hl & Hf).
    apply of_int_le in Hs, Hu, Ha, Hl, Hf.
    assert (Hraw : raw_risk_score features <= 0.67).
    { unfold raw_risk_score. unfold Py.of_int, inject_Z in *. lra. }
    split; [exact Hraw|].
    destruct (Qlt_le_dec (raw_risk_score features + jitter) 0.5) as [Hlt|Hge].
    + destruct (Qlt_le_dec (raw_risk_score features + jitter) 0.25) as [Hlt'|Hge'].
      * rewrite (proj2 (proj2 (proj2 (level_of_sum features jitter)))) by lra.
        discriminate.
      * rewrite (proj1 (proj2 (proj2 (level_of_sum features jitter)))) by lra.
        discriminate.
    + rewrite (proj1 (proj2 (level_of_sum features jitter))) by lra. discriminate.
  - reflexivity.
  - intros jitter Hj. pose proof (jitter_bounds _ Hj).
    apply (proj1 (proj2 (level_of_sum _ jitter))).
    assert (Hraw : raw_risk_score (mkFeatures 7 0.2 7 0.2 5 2 0) == 0.67) by reflexivity.
    rewrite Hraw. lra.
Qed.

(** The same record at jitter 0.0: raw sum 0.67, seven Low labels, level
    High. *)
Lemma all_Low_is_not_Critical_witness :
  raw_risk_score (mkFeatures 7 0.2 7 0.2 5 2 0) <= 0.67 /\
  snd (mock_predict (mkFeatures 7 0.2 7 0.2 5 2 0) 0.0) <> "Critical" /\
  snd (mock_predict (mkFeatures 7 0.2 7 0.2 5 2 0) 0.0) = "High".
Proof.
  destruct all_Low_is_not_Critical as (Hall & _ & Hhigh).
  destruct (Hall (mkFeatures 7 0.2 7 0.2 5 2 0) 0.0 eq_refl eq_refl) as [Hraw Hnot].
  split; [exact Hraw|]. split; [exact Hnot|]. apply Hhigh. reflexivity.
Defined.

(** * The recommendation table, continued *)

(** The keys of [recs]. *)
Lemma recs_keys (risk_level : string) :
  is_Some (recs !! risk_level) ->
  risk_level = "Critical" \/ risk_level = "High" \/
  risk_level = "Medium" \/ risk_level = "Low".
Proof.
  intros [text Htext].
  destruct (decide (risk_level = "Critical")) as [|HC]; [tauto|].
  destruct (decide (risk_level = "High")) as [|HH]; [tauto|].
  destruct (decide (risk_level = "Medium")) as [|HM]; [tauto|].
  destruct (decide (risk_level = "Low")) as [|HL]; [tauto|].
  rewrite recs_lookup_other in Htext by assumption. discriminate.
Qed.

(** X10: on the keys of [recs] the recommendation determines the level: two
    known levels with the same text are the same level, and a known level
    never gets the default text. *)
Theorem get_recommendation_injective (l1 l2 : string) :
  is_Some (recs !! l1) -> is_Some (recs !! l2) ->
  (get_recommendation l1 = get_recommendation l2 -> l1 = l2) /\
  get_recommendation l1 <> "Monitor regularly".
Proof.
  intros H1 H2.
  destruct (recs_keys _ H1) as [-> | [-> | [-> | ->]]];
  destruct (recs_keys _ H2) as [-> | [-> | [-> | ->]]];
    (split; [intros Heq; first [reflexivity | vm_compute in Heq; discriminate Heq]
           | vm_compute; discriminate]).
Qed.

(** High and Medium are keys and their texts differ. *)
Lemma get_recommendation_injective_witness :
  (get_recommendation "High" = get_recommendation "Medium" -> "High" = "Medium") /\
  get_recommendation "High" <> "Monitor regularly".
Proof.
  apply (get_recommendation_injective "High" "Medium"); vm_compute; eauto.
Defined.

(** * [mock_predict] on dictionaries *)

Lemma features_dict_lookups (sliders : Features) :
  features_dict sliders !! "salary_delay_days"
    = Some (PyInt (salary_delay_days sliders)) /\
  features_dict sliders !! "savings_drop_pct"
    = Some (PyFloat (savings_drop_pct sliders)) /\
  features_dict sliders !! "utility_payment_delay_days"
    = Some (PyInt (utility_payment_delay_days sliders)) /\
  features_dict sliders !! "discretionary_spend_drop_pct"
    = Some (PyFloat (discretionary_spend_drop_pct sliders)) /\
  features_dict sliders !! "atm_withdrawal_increase"
    = Some (PyInt (atm_withdrawal_increase sliders)) /\
  features_dict sliders !! "upi_lending_txn_count"
    = Some (PyInt (upi_lending_txn_count sliders)) /\
  features_dict sliders !! "failed_autodebit_count"
    = Some (PyInt (failed_autodebit_count sliders)).
Proof.
  unfold features_dict.
  repeat split; rewrite ?lookup_insert_ne by discriminate; apply lookup_insert_eq.
Qed.

(** The dictionary of the sliders yields the raw sum of the record. *)
Lemma dict_raw_risk_score_features_dict (sliders : Features) :
  dict_raw_risk_score (features_dict sliders) = inr (raw_risk_score sliders).
Proof.
  destruct (features_dict_lookups sliders) as (H1 & H2 & H3 & H4 & H5 & H6 & H7).
  unfold dict_raw_risk_score, subscript.
  rewrite H1, H2, H3, H4, H5, H6, H7. reflexivity.
Qed.

(** X11: on the dictionary that the page builds from its sliders,
    [mock_predict] never raises: it returns what the record version returns
    for the next value of the random source, and has consumed exactly that
    one value. *)
Theorem mock_predict_dict_features_dict (sliders : Features) (rng : RandomSource) :
  mock_predict_dict (features_dict sliders) rng
  = (inr (mock_predict sliders (uniform_draws rng (consumed rng))),
     mkRandomSource (uniform_draws rng) (S (consumed rng))).
Proof.
  unfold mock_predict_dict. rewrite dict_raw_risk_score_features_dict.
  unfold random_uniform. reflexivity.
Qed.



(** X13: [mock_predict] reads its dictionary at the seven keys only: two
    dictionaries that agree on them give the same outcome, whatever else
    they hold. *)
Theorem mock_predict_dict_reads_seven_keys
    (d1 d2 : gmap string PyNum) (rng : RandomSource) :
  (forall key, key ∈ read_order -> d1 !! key = d2 !! key) ->
  mock_predict_dict d1 rng = mock_predict_dict d2 rng.
Proof.
  intros Hagree.
  assert (Hraw : dict_raw_risk_score d1 = dict_raw_risk_score d2).
  { unfold dict_raw_risk_score, subscript.
    rewrite !(Hagree _) by (unfold read_order; set_solver). reflexivity. }
  unfold mock_predict_dict. now rewrite Hraw.
Qed.

(** An entry for the customer id, which the page also collects, changes
    nothing. *)
Lemma mock_predict_dict_reads_seven_keys_witness :
  mock_predict_dict (<["customer_id" := PyInt 1]> (features_dict all_max)) still_source
  = mock_predict_dict (features_dict all_max) still_source.
Proof.
  apply (mock_predict_dict_reads_seven_keys
           (<["customer_id" := PyInt 1]> (features_dict all_max)) (features_dict all_max)
           still_source).
  intros key Hkey. apply lookup_insert_ne. intros <-.
  apply list_elem_of_In in Hkey. cbn in Hkey. intuition discriminate.
Defined.

(** * What the page shows *)

(** X14: the banner follows the score.  From 0.75 it is the error banner
    with the immediate-intervention text, from 0.5 the warning banner with
    the debt-consolidation text, from 0.25 the info banner with the
    counseling text, below 0.25 the success banner with the
    standard-monitoring text. *)
Theorem banner_follows_score (features : Features) (jitter : Q) :
  (0.75 <= fst (mock_predict features jitter) ->
     banner (snd (mock_predict features jitter))
            (get_recommendation (snd (mock_predict features jitter)))
     = (st_error,
        "🚨 **CRITICAL RISK**" +:+ blank_line +:+
        "Immediate intervention - Offer payment holiday or loan restructuring")) /\
  (0.5 <= fst (mock_predict features jitter) ->
   fst (mock_predict features jitter) < 0.75 ->
     banner (snd (mock_predict features jitter))
            (get_recommendation (snd (mock_predict features jitter)))
     = (st_warning,
        "⚠️ **HIGH RISK**" +:+ blank_line +:+ "Priority contact - Propose debt consolidation plan")) /\
  (0.25 <= fst (mock_predict features jitter) ->
   fst (mock_predict features jitter) < 0.5 ->
     banner (snd (mock_predict features jitter))
            (get_recommendation (snd (mock_predict features jitter)))
     = (st_info,
        "ℹ️ **MEDIUM RISK**" +:+ blank_line +:+ "Schedule check-in call - Offer financial counseling")) /\
  (fst (mock_predict features jitter) < 0.25 ->
     banner (snd (mock_predict features jitter))
            (get_recommendation (snd (mock_predict features jitter)))
     = (st_success, "✅ **LOW RISK**" +:+ blank_line +:+ "Continue standard monitoring")).
Proof.
  rewrite mock_predict_level.
  destruct (risk_level_of_cases (fst (mock_predict features jitter)))
    as [[-> ?]|[[-> ?]|[[-> ?]|[-> ?]]]];
    (split; [|split; [|split]]); intros; try reflexivity; exfalso; lra.
Qed.

(** The all-maximum record gets the error banner, the all-zero record the
    success banner. *)
Lemma banner_follows_score_witness :
  fst (banner (snd (mock_predict all_max 0.0))
              (get_recommendation (snd (mock_predict all_max 0.0)))) = st_error /\
  fst (banner (snd (mock_predict all_zero 0.0))
              (get_recommendation (snd (mock_predict all_zero 0.0)))) = st_success.
Proof.
  split.
  - rewrite (proj1 (banner_follows_score all_max 0.0)); [reflexivity|].
    vm_compute. discriminate.
  - rewrite (proj2 (proj2 (proj2 (banner_follows_score all_zero 0.0)))); reflexivity.
Defined.



(** X16: the gauge agrees with the level.  The needle reaches the red
    threshold line exactly when the level is Critical; a needle inside one of
    the four background steps, counted from the lowest, shows the level of
    the same rank; and the needle never passes the upper end of the axis. *)
Theorem gauge_agrees_with_level (features : Features) (jitter : Q) (bar_color : string) :
  (snd (mock_predict features jitter) = "Critical" <->
   gauge_threshold (risk_gauge (fst (mock_predict features jitter)) bar_color)
   <= gauge_value (risk_gauge (fst (mock_predict features jitter)) bar_color)) /\
  (forall (i : nat) (lo hi : Q) (color : string),
     gauge_steps (risk_gauge (fst (mock_predict features jitter)) bar_color) !! i
       = Some (lo, hi, color) ->
     lo <= gauge_value (risk_gauge (fst (mock_predict features jitter)) bar_color) ->
     gauge_value (risk_gauge (fst (mock_predict features jitter)) bar_color) < hi ->
     ["Low"; "Medium"; "High"; "Critical"] !! i = Some (snd (mock_predict features jitter))) /\
  gauge_value (risk_gauge (fst (mock_predict features jitter)) bar_color)
  <= snd (gauge_axis (risk_gauge (fst (mock_predict features jitter)) bar_color)).
Proof.
  pose proof (min_le_l 1.0 (raw_risk_score features + jitter)) as Hle.
  rewrite <- mock_predict_score in Hle.
  rewrite mock_predict_level. cbn [risk_gauge gauge_value gauge_threshold gauge_steps
                                    gauge_axis snd].
  destruct (risk_level_of_cases (fst (mock_predict features jitter)))
    as [[-> ?]|[[-> ?]|[[-> ?]|[-> ?]]]].
  all: split; [split; [intros Heq; first [discriminate Heq | lra]
                      | intros ?; first [reflexivity | exfalso; lra]]|].
  all: split; [|lra].
  all: intros [|[|[|[|i]]]] lo hi color Hstep Hlo Hhi; try discriminate Hstep.
  all: injection Hstep as <- <- _; first [reflexivity | exfalso; lra].
Qed.

(** Lending-app count 7 with no jitter: score 0.35, needle at 35 inside the
    second step, level Medium. *)
Lemma gauge_agrees_with_level_witness :
  ["Low"; "Medium"; "High"; "Critical"] !! 1%nat
  = Some (snd (mock_predict (mkFeatures 0 0.0 0 0.0 0 7 0) 0.0)).
Proof.
  apply (proj1 (proj2 (gauge_agrees_with_level (mkFeatures 0 0.0 0 0.0 0 7 0) 0.0 "#FFD700"))
           1%nat 25 50 "#FFF9C4").
  - reflexivity.
  - vm_compute. discriminate.
  - reflexivity.
Defined.

(** X17: one press of the button never raises, whatever the sliders hold:
    the dictionary has the seven keys and [COLORS] has the level.  It
    consumes exactly one value of the random source and shows the level, the
    gauge, the banner and the impact column of the record run for that
    value. *)
Theorem analyze_never_raises (sliders : Features) (rng : RandomSource) :
  exists bar_color : string,
    COLORS !! snd (mock_predict sliders (uniform_draws rng (consumed rng)))
      = Some bar_color /\
    analyze sliders rng
    = (inr (mkAnalysis
              (snd (mock_predict sliders (uniform_draws rng (consumed rng))))
              (risk_gauge (fst (mock_predict sliders (uniform_draws rng (consumed rng))))
                 bar_color)
              (banner (snd (mock_predict sliders (uniform_draws rng (consumed rng))))
                 (get_recommendation
                    (snd (mock_predict sliders (uniform_draws rng (consumed rng))))))
              (Impact sliders)),
       mkRandomSource (uniform_draws rng) (S (consumed rng))).
Proof.
  unfold analyze, mock_predict_dict. rewrite dict_raw_risk_score_features_dict.
  unfold random_uniform. cbv zeta. cbn [fst snd].
  rewrite !mock_predict_level, !mock_predict_score.
  destruct (risk_level_of_cases
              (Py.min 1.0 (raw_risk_score sliders + uniform_draws rng (consumed rng))))
    as [[-> _]|[[-> _]|[[-> _]|[-> _]]]];
    eexists; (split; [reflexivity|]); reflexivity.
Qed.
